(** * Query tracker: the bounded request log of [main.py]

    A shallow embedding of the FastAPI application of [main.py]: the
    JSON document [data/queries.json] and the three functions that touch
    it ([load_queries], [save_query], [clear_queries]), the capture code
    of the middleware [log_queries] and of the handler
    [track_query_post], and the routing table that ties them together.

    Python values are the values the [json] module exchanges, plus
    [bytes]; functions that can raise live in a state-and-exception
    monad over a [World] that holds the document and the sources of
    identifiers and timestamps. *)

From Stdlib Require Import String Ascii.
From Stdlib Require Import List Bool Arith NArith ZArith Lia.
Import ListNotations.

Local Open Scope list_scope.
Set Warnings "-register-all".


(** ** Text and bytes *)

(** A Python [str] is a sequence of Unicode code points. *)
Definition text := list N.

Definition u (s : string) : text :=
  map N_of_ascii (list_ascii_of_string s).

Coercion u : string >-> text.

(** [a == b] on strings. *)
Fixpoint text_eqb (a b : text) : bool :=
  match a, b with
  | [], [] => true
  | x :: a', y :: b' => (x =? y)%N && text_eqb a' b'
  | _, _ => false
  end.

(** A Python [bytes] object: octets as numbers below 256. *)
Definition bytes := list N.

(** ** Python values *)

(** What [json.load] and [request.json()] return, and what the handlers
    build from it.  A [float] is carried by its literal.  [VBytes] is the
    one kind of object in [main.py] that [json] cannot serialise. *)
Inductive value : Type :=
| VNone
| VBool (b : bool)
| VInt (z : Z)
| VFloat (literal : text)
| VStr (s : text)
| VList (items : list value)
| VDict (entries : list (text * value))
| VBytes (b : bytes).

(** Induction that reaches inside lists and dictionaries. *)
Section ValueInd.
Variable P : value -> Prop.
Hypothesis HNone : P VNone.
Hypothesis HBool : forall b, P (VBool b).
Hypothesis HInt : forall z, P (VInt z).
Hypothesis HFloat : forall l, P (VFloat l).
Hypothesis HStr : forall s, P (VStr s).
Hypothesis HList : forall items, Forall P items -> P (VList items).
Hypothesis HDict :
  forall entries, Forall (fun kv => P (snd kv)) entries -> P (VDict entries).
Hypothesis HBytes : forall b, P (VBytes b).

Fixpoint value_rect_nested (v : value) : P v :=
  match v with
  | VNone => HNone
  | VBool b => HBool b
  | VInt z => HInt z
  | VFloat l => HFloat l
  | VStr s => HStr s
  | VList items =>
      HList items
        ((fix go (l : list value) : Forall P l :=
            match l with
            | [] => Forall_nil _
            | x :: r => Forall_cons x (value_rect_nested x) (go r)
            end) items)
  | VDict entries =>
      HDict entries
        ((fix go (l : list (text * value)) : Forall (fun kv => P (snd kv)) l :=
            match l with
            | [] => Forall_nil _
            | kv :: r =>
                Forall_cons (P := fun kv => P (snd kv)) kv
                  (value_rect_nested (snd kv)) (go r)
            end) entries)
  | VBytes b => HBytes b
  end.
End ValueInd.

(** The empty dictionary [{}] and the empty list [[]]. *)
Definition empty_dict : value := VDict [].
Definition empty_list : value := VList [].

(** [dict(m)] for a mapping whose values are strings. *)
Definition str_dict (m : list (text * text)) : value :=
  VDict (map (fun kv => (fst kv, VStr (snd kv))) m).

(** ** Exceptions and outcomes *)

Inductive exn : Type :=
| JSONDecodeError
| FileNotFoundError
| PermissionError
| UnicodeDecodeError
| AttributeError
| TypeError
| HTTPException.

Definition exn_eqb (a b : exn) : bool :=
  match a, b with
  | JSONDecodeError, JSONDecodeError
  | FileNotFoundError, FileNotFoundError
  | PermissionError, PermissionError
  | UnicodeDecodeError, UnicodeDecodeError
  | AttributeError, AttributeError
  | TypeError, TypeError
  | HTTPException, HTTPException => true
  | _, _ => false
  end.

Inductive outcome (A : Type) : Type :=
| Ok (a : A)
| Raise (e : exn).

Arguments Ok {A} a.
Arguments Raise {A} e.

(** ** The persisted document *)

(** What the file holds, seen through [json.load]. *)
Inductive content : Type :=
| Undecodable            (* octets that are not text: reading raises UnicodeDecodeError *)
| Malformed              (* text that is not JSON: json.load raises JSONDecodeError *)
| Document (v : value).  (* the serialisation of [v] *)

(** The resource at [DATA_FILE]. *)
Inductive file : Type :=
| Missing                (* os.path.exists is False *)
| Locked                 (* it exists, but open() is refused (permissions, a directory) *)
| Stored (c : content).

(** ** The world *)

Record World : Type := mkWorld {
  disk : file;                 (* data/queries.json *)
  uuid_source : nat -> text;   (* the n-th result of str(uuid.uuid4()) *)
  uuid_count : nat;
  clock : nat -> text;         (* the n-th result of datetime.now().isoformat() *)
  clock_count : nat
}.

Definition with_disk (w : World) (f : file) : World :=
  mkWorld f (uuid_source w) (uuid_count w) (clock w) (clock_count w).

(** ** The monad of handlers: state and exceptions *)

Definition M (A : Type) : Type := World -> outcome A * World.

Definition ret {A} (a : A) : M A := fun w => (Ok a, w).

Definition raise {A} (e : exn) : M A := fun w => (Raise e, w).

Definition bind {A B} (m : M A) (k : A -> M B) : M B :=
  fun w =>
    match m w with
    | (Ok a, w') => k a w'
    | (Raise e, w') => (Raise e, w')
    end.

Notation "x <- m ;; k" := (bind m (fun x => k))
  (at level 61, m at next level, right associativity).
Notation "m ;;; k" := (bind m (fun _ => k))
  (at level 61, right associativity).

(** [try: m  except (classes): handler]. *)
Definition try_except {A} (m : M A) (classes : list exn) (handler : M A) : M A :=
  fun w =>
    match m w with
    | (Ok a, w') => (Ok a, w')
    | (Raise e, w') =>
        if existsb (exn_eqb e) classes then handler w' else (Raise e, w')
    end.

(** [try: m  except: handler], the bare clause that catches everything. *)
Definition try_except_all {A} (m : M A) (handler : M A) : M A :=
  fun w =>
    match m w with
    | (Ok a, w') => (Ok a, w')
    | (Raise _, w') => handler w'
    end.

Definition lift {A} (o : outcome A) : M A := fun w => (o, w).

(** ** Library calls *)

Definition uuid4 : M text :=
  fun w => (Ok (uuid_source w (uuid_count w)),
            mkWorld (disk w) (uuid_source w) (S (uuid_count w))
                    (clock w) (clock_count w)).

Definition now_isoformat : M text :=
  fun w => (Ok (clock w (clock_count w)),
            mkWorld (disk w) (uuid_source w) (uuid_count w)
                    (clock w) (S (clock_count w))).

(** [os.path.exists(DATA_FILE)] *)
Definition os_path_exists : M bool :=
  fun w => (Ok (match disk w with Missing => false | _ => true end), w).

(** [open(DATA_FILE, "r")] *)
Definition open_read : M content :=
  fun w =>
    match disk w with
    | Missing => (Raise FileNotFoundError, w)
    | Locked => (Raise PermissionError, w)
    | Stored c => (Ok c, w)
    end.

(** [json.load(f)] *)
Definition json_load (f : content) : M value :=
  match f with
  | Undecodable => raise UnicodeDecodeError
  | Malformed => raise JSONDecodeError
  | Document v => ret v
  end.

(** ** Serialisation *)

Definition hex_digit (n : N) : N :=
  if (n <? 10)%N then (48 + n)%N else (87 + n)%N.

(** One octet in [repr(bytes)], for the quote character [q]. *)
Definition repr_byte (q : N) (b : N) : text :=
  if (b =? q)%N || (b =? 92)%N then [92; b]%N
  else if (b =? 9)%N then u "\t"
  else if (b =? 10)%N then u "\n"
  else if (b =? 13)%N then u "\r"
  else if (b <? 32)%N || (127 <=? b)%N
       then [92; 120; hex_digit (b / 16); hex_digit (b mod 16)]%N
  else [b].

(** [str(b)] for a [bytes] object [b]. *)
Definition str_of_bytes (b : bytes) : text :=
  let has c := existsb (N.eqb c) b in
  let q := if has 39%N && negb (has 34%N) then 34%N else 39%N in
  [98%N; q] ++ flat_map (repr_byte q) b ++ [q].

(** What [json.dump(v, f, default=str)] writes, as the value that
    [json.load] reads back: objects [json] cannot serialise go through
    [default]. *)
Fixpoint dumped (v : value) : value :=
  match v with
  | VList items => VList (map dumped items)
  | VDict entries => VDict (map (fun kv => (fst kv, dumped (snd kv))) entries)
  | VBytes b => VStr (str_of_bytes b)
  | _ => v
  end.

(** The values [json] serialises without help. *)
Fixpoint is_json (v : value) : bool :=
  match v with
  | VList items => forallb is_json items
  | VDict entries => forallb (fun kv => is_json (snd kv)) entries
  | VBytes _ => false
  | _ => true
  end.

(** [with open(DATA_FILE, "w") as f: json.dump(v, f, ..., default=str)] *)
Definition open_write_dump (v : value) : M unit :=
  fun w =>
    match disk w with
    | Locked => (Raise PermissionError, w)
    | _ => (Ok tt, with_disk w (Stored (Document (dumped v))))
    end.

(** ** List operations of Python *)

(** [queries.append(x)]: only a list has the method. *)
Definition py_append (queries x : value) : M value :=
  match queries with
  | VList items => ret (VList (items ++ [x]))
  | _ => raise AttributeError
  end.

(** [len(v)] *)
Definition py_len (v : value) : M nat :=
  match v with
  | VList items => ret (length items)
  | VDict entries => ret (length entries)
  | VStr s => ret (length s)
  | VBytes b => ret (length b)
  | _ => raise TypeError
  end.

(** [l[-n:]]: a start before the beginning is clamped to it. *)
Definition last_n {A} (n : nat) (l : list A) : list A :=
  skipn (length l - n) l.

Definition py_slice_last (n : nat) (v : value) : value :=
  match v with
  | VList items => VList (last_n n items)
  | VStr s => VStr (last_n n s)
  | VBytes b => VBytes (last_n n b)
  | _ => v
  end.

(** ** The store *)

(** [load_queries()] *)
Definition load_queries : M value :=
  found <- try_except
             (there <- os_path_exists ;;
              if there
              then (f <- open_read ;; v <- json_load f ;; ret (Some v))
              else ret None)
             [JSONDecodeError; FileNotFoundError]
             (ret None) ;;
  match found with
  | Some v => ret v
  | None => ret empty_list
  end.

(** [save_query(query_data)] *)
Definition save_query (query_data : value) : M unit :=
  queries <- load_queries ;;
  queries <- py_append queries query_data ;;
  n <- py_len queries ;;
  let queries := if 100 <? n then py_slice_last 100 queries else queries in
  open_write_dump queries.

(** ** Decoding UTF-8 *)

(** The [errors] argument of [bytes.decode]. *)
Inductive error_handler : Type := Strict | Ignore | Replace.

(** What the decoder finds at a position: a code point, or a stretch of
    octets that is not the start of any well-formed sequence. *)
Inductive scanned : Type :=
| Char (c : N)
| Bad.

Definition in_range (lo hi b : N) : bool := ((lo <=? b) && (b <=? hi))%N.

Definition is_continuation (b : N) : bool := in_range 0x80 0xBF b.

(** The second octet of a three- or four-octet sequence is narrowed by
    the first: no overlong forms, no surrogates, nothing above U+10FFFF. *)
Definition second_ok (lead b : N) : bool :=
  if (lead =? 0xE0)%N then in_range 0xA0 0xBF b
  else if (lead =? 0xED)%N then in_range 0x80 0x9F b
  else if (lead =? 0xF0)%N then in_range 0x90 0xBF b
  else if (lead =? 0xF4)%N then in_range 0x80 0x8F b
  else is_continuation b.

Definition low6 (b : N) : N := N.land b 0x3F.

(** The decoder of CPython: a failure covers the first octet and the
    octets after it that were still acceptable, and decoding resumes
    right behind them. *)
Fixpoint utf8_scan (bs : bytes) : list scanned :=
  match bs with
  | [] => []
  | b0 :: r0 =>
      if (b0 <? 0x80)%N then Char b0 :: utf8_scan r0
      else if (b0 <? 0xC2)%N then Bad :: utf8_scan r0
      else if (b0 <? 0xE0)%N then
        match r0 with
        | [] => [Bad]
        | b1 :: r1 =>
            if is_continuation b1
            then Char (N.lor (N.shiftl (N.land b0 0x1F) 6) (low6 b1)) :: utf8_scan r1
            else Bad :: utf8_scan r0
        end
      else if (b0 <? 0xF0)%N then
        match r0 with
        | [] => [Bad]
        | b1 :: r1 =>
            if second_ok b0 b1 then
              match r1 with
              | [] => [Bad]
              | b2 :: r2 =>
                  if is_continuation b2
                  then Char (N.lor (N.shiftl (N.land b0 0x0F) 12)
                               (N.lor (N.shiftl (low6 b1) 6) (low6 b2)))
                         :: utf8_scan r2
                  else Bad :: utf8_scan r1
              end
            else Bad :: utf8_scan r0
        end
      else if (b0 <? 0xF5)%N then
        match r0 with
        | [] => [Bad]
        | b1 :: r1 =>
            if second_ok b0 b1 then
              match r1 with
              | [] => [Bad]
              | b2 :: r2 =>
                  if is_continuation b2 then
                    match r2 with
                    | [] => [Bad]
                    | b3 :: r3 =>
                        if is_continuation b3
                        then Char (N.lor (N.shiftl (N.land b0 0x07) 18)
                                     (N.lor (N.shiftl (low6 b1) 12)
                                        (N.lor (N.shiftl (low6 b2) 6) (low6 b3))))
                               :: utf8_scan r3
                        else Bad :: utf8_scan r2
                    end
                  else Bad :: utf8_scan r1
              end
            else Bad :: utf8_scan r0
        end
      else Bad :: utf8_scan r0
  end.

Definition is_bad (s : scanned) : bool :=
  match s with Bad => true | Char _ => false end.

(** U+FFFD, the replacement character. *)
Definition replacement_character : N := 0xFFFD.

(** The code points that decode, in order, with the stretches that do
    not decode left out. *)
Definition decode_ignoring (b : bytes) : text :=
  flat_map (fun s => match s with Char c => [c] | Bad => [] end) (utf8_scan b).

(** The same with U+FFFD standing in for each stretch that does not
    decode. *)
Definition decode_replacing (b : bytes) : text :=
  map (fun s => match s with Char c => c | Bad => replacement_character end)
    (utf8_scan b).

(** [b.decode("utf-8", errors=...)] *)
Definition bytes_decode (errors : error_handler) (b : bytes) : M text :=
  match errors with
  | Strict =>
      if existsb is_bad (utf8_scan b) then raise UnicodeDecodeError
      else ret (decode_ignoring b)
  | Ignore => ret (decode_ignoring b)
  | Replace => ret (decode_replacing b)
  end.

(** ** Requests and responses *)

(** A request, as the accessors used in [main.py] present it.  The
    parsers behind [request.json()] and [request.form()] belong to the
    framework: what each of them returns or raises for this request is
    part of the request.  Form fields are text; uploaded files, which a
    multipart form can also carry, are outside this record. *)
Record Request : Type := mkRequest {
  method : text;                         (* request.method *)
  url_path : text;                       (* request.url.path *)
  url : text;                            (* str(request.url) *)
  headers : list (text * text);          (* dict(request.headers) *)
  query_params : list (text * text);     (* dict(request.query_params) *)
  client_host : option text;             (* request.client.host, if request.client *)
  json : outcome value;                  (* await request.json() *)
  form : outcome (list (text * text));   (* dict(await request.form()) *)
  payload : bytes                        (* await request.body() *)
}.

Definition request_json (request : Request) : M value := lift (json request).

Definition request_form (request : Request) : M value :=
  match form request with
  | Ok fields => ret (str_dict fields)
  | Raise e => raise e
  end.

Definition request_body (request : Request) : M bytes := ret (payload request).

Inductive Response : Type :=
| JSON (status : nat) (content : value)
| Template (status : nat) (name : text) (context : value).

(** [JSONResponse(content)]: the content is rendered with [json.dumps]
    when the response is built, which fails for an object [json] cannot
    serialise.  The framework's rendering is stricter still (it refuses
    NaN, the infinities and strings with lone surrogates); floats are
    carried here by their literal and strings are not inspected, so
    that strictness is outside this definition. *)
Definition JSONResponse (content : value) : M Response :=
  if is_json content then ret (JSON 200 content) else raise TypeError.

Local Open Scope string_scope.
Local Open Scope nat_scope.
Local Open Scope list_scope.

(** The dictionary [query_data] that the middleware and the POST handler
    both build. *)
Definition query_record (query_id timestamp : text) (request : Request)
    (query_params body : value) : value :=
  VDict [ (u "query_id", VStr query_id);
          (u "timestamp", VStr timestamp);
          (u "method", VStr (method request));
          (u "path", VStr (url_path request));
          (u "headers", str_dict (headers request));
          (u "query_params", query_params);
          (u "body", body);
          (u "client_ip",
            match client_host request with Some h => VStr h | None => VNone end);
          (u "url", VStr (url request)) ].

(** ** The middleware *)

(** [log_queries(request, call_next)] *)
Definition log_queries (request : Request) (call_next : Request -> M Response)
    : M Response :=
  if text_eqb (url_path request) "/track-query" && text_eqb (method request) "GET"
  then
    query_id <- uuid4 ;;
    timestamp <- now_isoformat ;;
    let query_params := str_dict (query_params request) in
    body <- (if existsb (text_eqb (method request)) [u "POST"; u "PUT"; u "PATCH"]
             then
               try_except_all (request_json request)
                 (try_except_all (request_form request)
                    (raw <- request_body request ;;
                     ret (VDict [(u "raw_body", VBytes raw)])))
             else ret empty_dict) ;;
    let query_data := query_record query_id timestamp request query_params body in
    save_query query_data ;;;
    JSONResponse
      (VDict [ (u "message", VStr "Query tracked successfully");
               (u "query_id", VStr query_id);
               (u "timestamp", VStr timestamp);
               (u "query_params", query_params) ])
  else call_next request.

(** ** The handlers *)

(** [track_query_get]: its body is [pass]. *)
Definition track_query_get (request : Request) : M value := ret VNone.

(** The [try]/[except] ladder of [track_query_post]. *)
Definition parse_body (request : Request) : M value :=
  try_except_all (request_json request)
    (try_except_all (request_form request)
       (raw <- request_body request ;;
        decoded <- bytes_decode Ignore raw ;;
        ret (VDict [(u "raw_body", VStr decoded)]))).

(** The local variables of [track_query_post] when it reaches
    [save_query]. *)
Record Captured : Type := mkCaptured {
  c_query_id : text;
  c_timestamp : text;
  c_query_params : value;
  c_body : value;
  c_query_data : value
}.

(** [track_query_post] up to the point where the record is built. *)
Definition capture (request : Request) : M Captured :=
  query_id <- uuid4 ;;
  timestamp <- now_isoformat ;;
  let query_params := str_dict (query_params request) in
  body <- parse_body request ;;
  let query_data := query_record query_id timestamp request query_params body in
  ret (mkCaptured query_id timestamp query_params body query_data).

(** [track_query_post(request)] *)
Definition track_query_post (request : Request) : M Response :=
  c <- capture request ;;
  save_query (c_query_data c) ;;;
  JSONResponse
    (VDict [ (u "message", VStr "Query tracked successfully");
             (u "query_id", VStr (c_query_id c));
             (u "timestamp", VStr (c_timestamp c));
             (u "query_params", c_query_params c);
             (u "body", c_body c) ]).

(** [track_query_put(request)] *)
Definition track_query_put (request : Request) : M Response :=
  track_query_post request.

(** [track_query_patch(request)] *)
Definition track_query_patch (request : Request) : M Response :=
  track_query_post request.

(** [get_queries_html(request)]; the request object that the context
    also carries is left out. *)
Definition get_queries_html (request : Request) : M Response :=
  queries <- load_queries ;;
  n <- py_len queries ;;
  ret (Template 200 "queries.html"
         (VDict [ (u "queries", queries);
                  (u "queries_count", VInt (Z.of_nat n)) ])).

(** [get_queries_api()] *)
Definition get_queries_api : M value :=
  queries <- load_queries ;;
  n <- py_len queries ;;
  ret (VDict [ (u "queries", queries); (u "count", VInt (Z.of_nat n)) ]).

(** [clear_queries()] *)
Definition clear_queries : M value :=
  open_write_dump empty_list ;;;
  ret (VDict [ (u "message", VStr "All queries cleared successfully") ]).

(** ** Routing *)

(** A handler that returns a plain object is answered with status 200
    and that object as JSON. *)
Definition respond (handler : M value) : M Response :=
  v <- handler ;; ret (JSON 200 v).

Definition not_found : Response :=
  JSON 404 (VDict [(u "detail", VStr "Not Found")]).

Definition method_not_allowed : Response :=
  JSON 405 (VDict [(u "detail", VStr "Method Not Allowed")]).

(** The routes declared with [@app.get], [@app.post], [@app.put] and
    [@app.patch]. *)
Definition router (request : Request) : M Response :=
  let verb m := text_eqb (method request) (u m) in
  let at_path p := text_eqb (url_path request) (u p) in
  if at_path "/track-query" then
    if verb "GET" then respond (track_query_get request)
    else if verb "POST" then track_query_post request
    else if verb "PUT" then track_query_put request
    else if verb "PATCH" then track_query_patch request
    else ret method_not_allowed
  else if at_path "/queries" then
    if verb "GET" then get_queries_html request else ret method_not_allowed
  else if at_path "/api/queries" then
    if verb "GET" then respond get_queries_api else ret method_not_allowed
  else if at_path "/clear-queries" then
    if verb "POST" then respond clear_queries else ret method_not_allowed
  else ret not_found.

(** The application: the middleware wrapped around the router. *)
Definition app (request : Request) : M Response :=
  log_queries request router.

(** ** Vocabulary of the statements *)

(** The states of the document in which it stands for a log: nothing
    there yet, text that does not parse, or a JSON array. *)
Inductive holds_log : file -> list value -> Prop :=
| log_missing : holds_log Missing []
| log_malformed : holds_log (Stored Malformed) []
| log_document (l : list value) : holds_log (Stored (Document (VList l))) l.

(** What [save_query] writes when the document stands for a log. *)
Definition appended (l : list value) (r : value) : list value :=
  map dumped (last_n 100 (l ++ [r])).

(** One call of [save_query] per record, in order. *)
Fixpoint save_each (records : list value) : M unit :=
  match records with
  | [] => ret tt
  | r :: rest => save_query r ;;; save_each rest
  end.

(** The keys of a record, in the order of the dictionary display. *)
Definition record_keys : list text :=
  [ u "query_id"; u "timestamp"; u "method"; u "path"; u "headers";
    u "query_params"; u "body"; u "client_ip"; u "url" ].

Definition keys (v : value) : option (list text) :=
  match v with
  | VDict entries => Some (map fst entries)
  | _ => None
  end.

(** [d[k]] for a dictionary [d]. *)
Fixpoint lookup (k : text) (entries : list (text * value)) : option value :=
  match entries with
  | [] => None
  | (k', v) :: rest => if text_eqb k k' then Some v else lookup k rest
  end.

Definition field (k : text) (v : value) : option value :=
  match v with
  | VDict entries => lookup k entries
  | _ => None
  end.

(** The body policy in the words of the specification, for a way
    [raw_text] of turning the payload into text: the structured document
    if it parses, else the form fields if they parse, else the raw text. *)
Definition body_policy (raw_text : bytes -> text) (request : Request) : value :=
  match json request with
  | Ok document => document
  | Raise _ =>
      match form request with
      | Ok fields => str_dict fields
      | Raise _ => VDict [(u "raw_body", VStr (raw_text (payload request)))]
      end
  end.

(** The specification's conditions for [load] to fall back on the empty
    log: the document is absent, unreadable, or not well-formed. *)
Definition absent_unreadable_or_ill_formed (f : file) : Prop :=
  f = Missing \/ f = Locked \/ f = Stored Undecodable \/ f = Stored Malformed.


(** The acknowledgement of the middleware. *)
Definition get_acknowledgement (query_id timestamp : text) (query_params : value)
    : value :=
  VDict [ (u "message", VStr "Query tracked successfully");
          (u "query_id", VStr query_id);
          (u "timestamp", VStr timestamp);
          (u "query_params", query_params) ].

(** The acknowledgement of the POST handler. *)
Definition post_acknowledgement (query_id timestamp : text)
    (query_params body : value) : value :=
  VDict [ (u "message", VStr "Query tracked successfully");
          (u "query_id", VStr query_id);
          (u "timestamp", VStr timestamp);
          (u "query_params", query_params);
          (u "body", body) ].

(** The world once an identifier and a timestamp have been drawn. *)
Definition ticked (w : World) : World :=
  mkWorld (disk w) (uuid_source w) (S (uuid_count w))
          (clock w) (S (clock_count w)).

(** The same request sent with another verb. *)
Definition with_method (verb : text) (request : Request) : Request :=
  mkRequest verb (url_path request) (url request) (headers request)
            (query_params request) (client_host request)
            (json request) (form request) (payload request).

(** A world for examples: identifiers [id0], [id1], ... and timestamps
    [t0], [t1], ... *)
Definition example_world (f : file) : World :=
  mkWorld f (fun n => u "id" ++ [N.of_nat (48 + n)]) 0
            (fun n => u "t" ++ [N.of_nat (48 + n)]) 0.

(** Example requests: a JSON body with a query string, a form, octets
    that are neither (sent as a multipart form without a boundary), and
    no body at all. *)
Definition json_request : Request :=
  mkRequest "POST" "/track-query" "http://testserver/track-query?a=1"
    [(u "content-type", u "application/json")] [(u "a", u "1")]
    (Some (u "testclient"))
    (Ok (VDict [(u "q", VStr "hello")]))
    (Ok [])
    [123; 34; 113; 34; 58; 34; 104; 101; 108; 108; 111; 34; 125]%N.

Definition form_request : Request :=
  mkRequest "POST" "/track-query" "http://testserver/track-query"
    [(u "content-type", u "application/x-www-form-urlencoded")] []
    (Some (u "testclient"))
    (Raise JSONDecodeError)
    (Ok [(u "q", u "hello")])
    (u "q=hello").

Definition binary_request : Request :=
  mkRequest "POST" "/track-query" "http://testserver/track-query"
    [(u "content-type", u "multipart/form-data")] []
    None
    (Raise UnicodeDecodeError)
    (Raise HTTPException)
    [0xFF; 0x41; 0xE2; 0x82]%N.

Definition empty_request : Request :=
  mkRequest "POST" "/track-query" "http://testserver/track-query"
    [] [] None
    (Raise JSONDecodeError)
    (Ok [])
    [].

Definition get_request : Request :=
  mkRequest "GET" "/track-query" "http://testserver/track-query?x=5"
    [(u "host", u "testserver")] [(u "x", u "5")]
    (Some (u "testclient"))
    (Raise JSONDecodeError)
    (Ok [])
    [].

Definition api_request : Request :=
  mkRequest "GET" "/api/queries" "http://testserver/api/queries"
    [(u "host", u "testserver")] [] (Some (u "testclient"))
    (Raise JSONDecodeError) (Ok []) [].

(** Records numbered from 1. *)
Definition numbered_records (n : nat) : list value :=
  map (fun i => VDict [(u "query_id", VInt (Z.of_nat i))]) (seq 1 n).

Definition three_records : list value :=
  [ VDict [(u "query_id", VStr "a")];
    VDict [(u "query_id", VStr "b")];
    VDict [(u "query_id", VStr "c")] ].

(** ** Vocabulary of the further properties *)

(** The requests that reach code which writes the document: the four
    verbs with a handler on [/track-query], and POST on
    [/clear-queries]. *)
Definition writes (request : Request) : Prop :=
  (url_path request = u "/track-query" /\
   In (method request) [u "GET"; u "POST"; u "PUT"; u "PATCH"]) \/
  (url_path request = u "/clear-queries" /\ method request = u "POST").

(** The document stands for a log within the cap. *)
Definition bounded_log (f : file) : Prop :=
  exists l : list value, holds_log f l /\ length l <= 100.

(** The application serving requests one after the other.  A request
    whose handler raises is answered with an error and the next one is
    served in the world the failed one left behind. *)
Fixpoint serve (requests : list Request) (w : World) : World :=
  match requests with
  | [] => w
  | request :: rest => serve rest (snd (app request w))
  end.

(** The record and the acknowledgement built for a request to
    [/track-query] in world [w], for the body [body]. *)
Definition record_in (w : World) (request : Request) (body : value) : value :=
  query_record (uuid_source w (uuid_count w)) (clock w (clock_count w))
    request (str_dict (query_params request)) body.

Definition request_with_accents : Request :=
  mkRequest "POST" "/track-query" "http://testserver/track-query"
    [(u "content-type", u "multipart/form-data")] []
    None
    (Raise JSONDecodeError)
    (Raise HTTPException)
    [0x63; 0x61; 0x66; 0xC3; 0xA9]%N.

(** * Properties *)

Lemma text_eqb_eq (a b : text) : text_eqb a b = true <-> a = b.
Proof.
  revert b. induction a as [ | x a IH ]; intros [ | y b ]; cbn;
    try (split; (reflexivity || discriminate)).
  rewrite andb_true_iff, N.eqb_eq, IH. split.
  - intros [-> ->]. reflexivity.
  - intros E. injection E as -> ->. split; reflexivity.
Qed.

Lemma text_eqb_refl (a : text) : text_eqb a a = true.
Proof. now apply text_eqb_eq. Qed.

(** Comparisons of two string literals are settled by evaluation. *)
Ltac decide_routes :=
  cbv beta zeta; cbn [existsb];
  repeat match goal with
    | |- context [text_eqb (u ?a) (u ?b)] =>
        let r := eval vm_compute in (text_eqb (u a) (u b)) in
        change (text_eqb (u a) (u b)) with r
    end;
  cbn [andb orb].

(** ** Suffixes of lists *)

Section LastN.
Context {A : Type}.
Implicit Types (l a b : list A) (n : nat).

Lemma last_n_length n l : length (last_n n l) = Nat.min n (length l).
Proof. unfold last_n. rewrite length_skipn. lia. Qed.

Lemma last_n_short n l : length l <= n -> last_n n l = l.
Proof.
  intros H. unfold last_n.
  replace (length l - n) with 0 by lia. apply skipn_0.
Qed.

Lemma last_n_suffix n l : firstn (length l - n) l ++ last_n n l = l.
Proof. apply firstn_skipn. Qed.

(** Truncating before more elements arrive loses nothing that a later
    truncation would have kept. *)
Lemma last_n_app_absorb n a b : last_n n (last_n n a ++ b) = last_n n (a ++ b).
Proof.
  unfold last_n at 1 3. rewrite !skipn_app, !length_app, last_n_length.
  f_equal.
  - unfold last_n. rewrite skipn_skipn. f_equal. lia.
  - f_equal. lia.
Qed.

Lemma last_n_snoc n l x : last_n (S n) (l ++ [x]) = last_n n l ++ [x].
Proof.
  unfold last_n. rewrite skipn_app, length_app. cbn [length].
  replace (length l + 1 - S n) with (length l - n) by lia.
  replace (length l - n - length l) with 0 by lia.
  reflexivity.
Qed.

Lemma last_n_forallb (p : A -> bool) n l :
  forallb p l = true -> forallb p (last_n n l) = true.
Proof.
  intros H. rewrite <- (last_n_suffix n l), forallb_app in H.
  now apply andb_true_iff in H.
Qed.
End LastN.

(** ** Serialisation *)

Lemma dumped_json (v : value) : is_json v = true -> dumped v = v.
Proof.
  induction v as [ | | | | | items IH | entries IH | ] using value_rect_nested;
    cbn [is_json dumped]; intros H; try reflexivity; try discriminate.
  - f_equal. induction IH as [ | x r Hx _ IHr ]; cbn in *; [ reflexivity | ].
    apply andb_true_iff in H as [H1 H2]. now rewrite Hx, IHr.
  - f_equal. induction IH as [ | [k x] r Hx _ IHr ]; cbn in *; [ reflexivity | ].
    apply andb_true_iff in H as [H1 H2]. now rewrite Hx, IHr.
Qed.

Lemma is_json_dumped (v : value) : is_json (dumped v) = true.
Proof.
  induction v as [ | | | | | items IH | entries IH | ] using value_rect_nested;
    cbn [is_json dumped]; try reflexivity.
  - induction IH as [ | x r Hx _ IHr ]; cbn in *; [ reflexivity | ].
    now rewrite Hx, IHr.
  - induction IH as [ | [k x] r Hx _ IHr ]; cbn in *; [ reflexivity | ].
    now rewrite Hx, IHr.
Qed.

Lemma map_dumped_json (l : list value) :
  forallb is_json l = true -> map dumped l = l.
Proof.
  induction l as [ | x r IH ]; cbn; [ reflexivity | ].
  intros H. apply andb_true_iff in H as [H1 H2].
  now rewrite dumped_json, IH.
Qed.


(** ** The store *)

#[local] Hint Constructors holds_log : core.

Lemma disk_with_disk (w : World) (f : file) : disk (with_disk w f) = f.
Proof. reflexivity. Qed.

Lemma with_disk_with_disk (w : World) (f g : file) :
  with_disk (with_disk w f) g = with_disk w g.
Proof. reflexivity. Qed.

Lemma load_queries_log (w : World) (l : list value) :
  holds_log (disk w) l -> load_queries w = (Ok (VList l), w).
Proof.
  intros H. destruct w as [d us uc cl cc]. cbn [disk] in H.
  inversion H; subst; reflexivity.
Qed.

Lemma save_query_log (w : World) (l : list value) (r : value) :
  holds_log (disk w) l ->
  save_query r w
  = (Ok tt, with_disk w (Stored (Document (VList (appended l r))))).
Proof.
  intros H. unfold save_query, bind at 1.
  rewrite (load_queries_log w l H).
  unfold bind, py_append, py_len, ret, open_write_dump.
  assert (Hcut : (if 100 <? length (l ++ [r])
                  then py_slice_last 100 (VList (l ++ [r]))
                  else VList (l ++ [r]))
                 = VList (last_n 100 (l ++ [r]))).
  { destruct (Nat.ltb_spec 100 (length (l ++ [r]))) as [Hlt | Hle].
    - reflexivity.
    - now rewrite last_n_short. }
  rewrite Hcut.
  destruct w as [d us uc cl cc]. cbn [disk] in H.
  inversion H; subst; reflexivity.
Qed.

Lemma appended_json (l : list value) (r : value) :
  forallb is_json l = true -> is_json r = true ->
  appended l r = last_n 100 (l ++ [r]).
Proof.
  intros Hl Hr. apply map_dumped_json, last_n_forallb.
  rewrite forallb_app, Hl. cbn. now rewrite Hr.
Qed.

Lemma appended_last (l : list value) (r : value) :
  is_json r = true -> appended l r = map dumped (last_n 99 l) ++ [r].
Proof.
  intros Hr. unfold appended.
  rewrite (last_n_snoc 99), map_app. cbn. now rewrite dumped_json.
Qed.

Lemma save_each_log (rs : list value) :
  forall (w : World) (l : list value),
    holds_log (disk w) l ->
    length l <= 100 ->
    forallb is_json l = true ->
    forallb is_json rs = true ->
    exists w',
      save_each rs w = (Ok tt, w') /\
      holds_log (disk w') (last_n 100 (l ++ rs)).
Proof.
  induction rs as [ | r rest IH ]; intros w l Hlog Hlen Hl Hrs.
  - exists w. split; [ reflexivity | ].
    now rewrite app_nil_r, last_n_short.
  - cbn [forallb] in Hrs. apply andb_true_iff in Hrs as [Hr Hrest].
    pose proof (save_query_log w l r Hlog) as Hsave.
    rewrite (appended_json l r Hl Hr) in Hsave.
    set (l1 := last_n 100 (l ++ [r])) in *.
    set (w1 := with_disk w (Stored (Document (VList l1)))) in *.
    destruct (IH w1 l1) as [w' [Hrun Hfinal]].
    + subst w1. rewrite disk_with_disk. constructor.
    + subst l1. rewrite last_n_length. lia.
    + subst l1. apply last_n_forallb.
      rewrite forallb_app, Hl. cbn. now rewrite Hr.
    + exact Hrest.
    + exists w'. split.
      * cbn [save_each]. unfold bind. now rewrite Hsave.
      * subst l1. rewrite last_n_app_absorb, <- app_assoc in Hfinal.
        exact Hfinal.
Qed.

(** ** The claims about the store *)

(** C1. Starting from an empty log, after any sequence of appends the
    persisted log holds at most 100 records, and they are exactly the
    most recent min(n, 100) appended records in their original order;
    after 105 appends exactly 100 remain, the oldest 5 gone. *)
Theorem appends_keep_most_recent (rs : list value) (w : World) :
  holds_log (disk w) [] ->
  forallb is_json rs = true ->
  exists (w' : World) (kept : list value),
    save_each rs w = (Ok tt, w') /\
    load_queries w' = (Ok (VList kept), w') /\
    kept = skipn (length rs - Nat.min (length rs) 100) rs /\
    length kept = Nat.min (length rs) 100 /\
    length kept <= 100 /\
    (length rs = 105 -> kept = skipn 5 rs /\ length kept = 100).
Proof.
  intros Hlog Hrs.
  destruct (save_each_log rs w [] Hlog) as [w' [Hrun Hfinal]];
    [ cbn; lia | reflexivity | exact Hrs | ].
  cbn [app] in Hfinal.
  exists w', (last_n 100 rs).
  split; [ exact Hrun | ].
  split; [ now apply load_queries_log | ].
  split; [ unfold last_n; f_equal; lia | ].
  split; [ rewrite last_n_length; lia | ].
  split; [ rewrite last_n_length; lia | ].
  intros H105. split.
  - unfold last_n. now rewrite H105.
  - rewrite last_n_length. lia.
Qed.

Lemma appends_keep_most_recent_witness :
  exists w' : World,
    save_each (numbered_records 105) (example_world Missing) = (Ok tt, w') /\
    load_queries w' = (Ok (VList (skipn 5 (numbered_records 105))), w').
Proof.
  destruct (appends_keep_most_recent (numbered_records 105) (example_world Missing))
    as [w' [kept [Hrun [Hload [_ [_ [_ H105]]]]]]].
  - constructor.
  - reflexivity.
  - destruct H105 as [Hkept _]; [ reflexivity | ].
    exists w'. rewrite <- Hkept. split; assumption.
Defined.

(** C6. Round trip: whatever log the document held, [load_queries]
    right after [save_query r] returns a log whose last element is
    [r]. *)
Theorem load_after_save_ends_with_record (r : value) (l : list value) (w : World) :
  holds_log (disk w) l ->
  is_json r = true ->
  exists (w' : World) (front : list value),
    save_query r w = (Ok tt, w') /\
    load_queries w' = (Ok (VList (front ++ [r])), w').
Proof.
  intros Hlog Hr.
  exists (with_disk w (Stored (Document (VList (appended l r))))),
         (map dumped (last_n 99 l)).
  split.
  - now apply save_query_log.
  - rewrite <- (appended_last l r Hr).
    apply load_queries_log. rewrite disk_with_disk. constructor.
Qed.

Lemma load_after_save_ends_with_record_witness :
  exists (w' : World) (front : list value),
    save_query (VDict [(u "query_id", VStr "a")])
      (example_world (Stored (Document (VList [VInt 1; VInt 2])))) = (Ok tt, w') /\
    load_queries w' = (Ok (VList (front ++ [VDict [(u "query_id", VStr "a")]])), w').
Proof.
  apply (load_after_save_ends_with_record _ [VInt 1; VInt 2]).
  - constructor.
  - reflexivity.
Defined.

(** C10. A document that already holds more than 100 records is cut
    back by a single append: what is left is exactly the most recent
    100 records, the new one last. *)
Theorem save_query_restores_cap (l : list value) (r : value) (w : World) :
  disk w = Stored (Document (VList l)) ->
  100 < length l ->
  forallb is_json l = true ->
  is_json r = true ->
  exists (w' : World) (kept : list value),
    save_query r w = (Ok tt, w') /\
    disk w' = Stored (Document (VList kept)) /\
    load_queries w' = (Ok (VList kept), w') /\
    kept = skipn (length (l ++ [r]) - 100) (l ++ [r]) /\
    kept = skipn (length l - 99) l ++ [r] /\
    length kept = 100.
Proof.
  intros Hdisk Hlen Hl Hr.
  assert (Hlog : holds_log (disk w) l) by (rewrite Hdisk; constructor).
  exists (with_disk w (Stored (Document (VList (appended l r))))), (appended l r).
  split; [ now apply save_query_log | ].
  split; [ reflexivity | ].
  split; [ apply load_queries_log; rewrite disk_with_disk; constructor | ].
  rewrite (appended_json l r Hl Hr).
  split; [ reflexivity | ].
  split.
  - apply (last_n_snoc 99).
  - rewrite last_n_length, length_app. cbn [length]. lia.
Qed.

Lemma save_query_restores_cap_witness :
  exists (w' : World) (kept : list value),
    save_query (VStr "new")
      (example_world (Stored (Document (VList (numbered_records 150))))) = (Ok tt, w') /\
    disk w' = Stored (Document (VList kept)) /\
    kept = skipn 51 (numbered_records 150) ++ [VStr "new"].
Proof.
  destruct (save_query_restores_cap (numbered_records 150) (VStr "new")
              (example_world (Stored (Document (VList (numbered_records 150))))))
    as [w' [kept [Hsave [Hdisk [_ [_ [Hkept _]]]]]]].
  - reflexivity.
  - vm_compute. repeat constructor.
  - reflexivity.
  - reflexivity.
  - exists w', kept. repeat split; assumption.
Defined.

(** C3, as the code has it. [load_queries] returns the empty log, and
    raises nothing, when the document is absent or is text that is not
    well-formed JSON; when the document exists but cannot be opened, or
    its octets are not text, the exception reaches the caller. *)
Theorem load_queries_recovers (w : World) :
  (disk w = Missing \/ disk w = Stored Malformed ->
   load_queries w = (Ok empty_list, w)) /\
  (disk w = Locked -> load_queries w = (Raise PermissionError, w)) /\
  (disk w = Stored Undecodable ->
   load_queries w = (Raise UnicodeDecodeError, w)).
Proof.
  split; [ | split ].
  - intros [H | H]; apply load_queries_log; rewrite H; constructor.
  - destruct w as [d us uc cl cc]. cbn [disk]. intros ->. reflexivity.
  - destruct w as [d us uc cl cc]. cbn [disk]. intros ->. reflexivity.
Qed.

Lemma load_queries_recovers_witness :
  load_queries (example_world Missing)
  = (Ok empty_list, example_world Missing) /\
  load_queries (example_world (Stored Malformed))
  = (Ok empty_list, example_world (Stored Malformed)) /\
  load_queries (example_world Locked)
  = (Raise PermissionError, example_world Locked) /\
  load_queries (example_world (Stored Undecodable))
  = (Raise UnicodeDecodeError, example_world (Stored Undecodable)).
Proof.
  split; [ | split; [ | split ] ].
  - apply (load_queries_recovers (example_world Missing)). left. reflexivity.
  - apply (load_queries_recovers (example_world (Stored Malformed))).
    right. reflexivity.
  - apply (load_queries_recovers (example_world Locked)). reflexivity.
  - apply (load_queries_recovers (example_world (Stored Undecodable))).
    reflexivity.
Defined.

(** C3, as the specification has it, fails: a document that exists but
    cannot be opened, and one whose octets are not text, are both among
    the specification's conditions, and [load_queries] raises on each. *)
Lemma load_queries_unreadable_raises :
  absent_unreadable_or_ill_formed (disk (example_world Locked)) /\
  load_queries (example_world Locked)
  = (Raise PermissionError, example_world Locked) /\
  fst (load_queries (example_world Locked)) <> Ok empty_list /\
  absent_unreadable_or_ill_formed (disk (example_world (Stored Undecodable))) /\
  load_queries (example_world (Stored Undecodable))
  = (Raise UnicodeDecodeError, example_world (Stored Undecodable)) /\
  fst (load_queries (example_world (Stored Undecodable))) <> Ok empty_list.
Proof.
  unfold absent_unreadable_or_ill_formed.
  repeat split; try discriminate; cbn; auto.
Qed.

(** C5, as the code has it. Whatever the document held, corrupt
    content included, [clear_queries] replaces it with the empty log
    and acknowledges, and the listing that follows is empty with count
    0, provided the file can be opened for writing; the write is not
    guarded, so when [open] is refused [clear_queries] raises and
    acknowledges nothing. *)
Theorem clear_then_list_is_empty (w : World) :
  (disk w <> Locked ->
   exists w' : World,
     clear_queries w
     = (Ok (VDict [(u "message", VStr "All queries cleared successfully")]), w') /\
     disk w' = Stored (Document empty_list) /\
     get_queries_api w'
     = (Ok (VDict [(u "queries", VList []); (u "count", VInt 0)]), w')) /\
  (disk w = Locked -> clear_queries w = (Raise PermissionError, w)).
Proof.
  split.
  - intros H.
    exists (with_disk w (Stored (Document empty_list))).
    destruct w as [d us uc cl cc]. cbn [disk] in H.
    destruct d; [ | congruence | ]; repeat split.
  - destruct w as [d us uc cl cc]. cbn [disk]. intros ->. reflexivity.
Qed.

Lemma clear_then_list_is_empty_witness :
  (exists w' : World,
     clear_queries (example_world (Stored Undecodable))
     = (Ok (VDict [(u "message", VStr "All queries cleared successfully")]), w') /\
     disk w' = Stored (Document empty_list) /\
     get_queries_api w'
     = (Ok (VDict [(u "queries", VList []); (u "count", VInt 0)]), w')) /\
  clear_queries (example_world Locked)
  = (Raise PermissionError, example_world Locked).
Proof.
  split.
  - apply (clear_then_list_is_empty (example_world (Stored Undecodable))).
    discriminate.
  - apply (clear_then_list_is_empty (example_world Locked)). reflexivity.
Defined.

(** C5, as the specification has it, fails: clearing is not
    unconditional.  When the file exists but cannot be opened,
    [clear_queries] raises PermissionError, returns no acknowledgement
    and leaves the document as it was. *)
Lemma clear_queries_refused_raises :
  clear_queries (example_world Locked)
  = (Raise PermissionError, example_world Locked) /\
  fst (clear_queries (example_world Locked))
  <> Ok (VDict [(u "message", VStr "All queries cleared successfully")]) /\
  disk (snd (clear_queries (example_world Locked))) <> Stored (Document empty_list).
Proof.
  split; [ reflexivity | ].
  split; cbn; discriminate.
Qed.



(** A document that parses to something other than a list is returned as
    it is by [load_queries], and [save_query] then fails on [append]. *)
Example save_query_on_a_dictionary :
  save_query (VStr "r") (example_world (Stored (Document empty_dict)))
  = (Raise AttributeError, example_world (Stored (Document empty_dict))).
Proof. reflexivity. Qed.

(** ** Decoding *)

Example decode_two_octets : decode_ignoring [0xC3; 0xA9]%N = [0xE9]%N.
Proof. reflexivity. Qed.

Example decode_three_octets : decode_ignoring [0xE2; 0x82; 0xAC]%N = [0x20AC]%N.
Proof. reflexivity. Qed.

Example decode_four_octets :
  decode_ignoring [0xF0; 0x9F; 0x98; 0x80]%N = [0x1F600]%N.
Proof. reflexivity. Qed.

Example decode_overlong :
  decode_replacing [0xC0; 0x80]%N = [0xFFFD; 0xFFFD]%N /\
  decode_ignoring [0xC0; 0x80]%N = [].
Proof. split; reflexivity. Qed.

Example decode_truncated :
  decode_replacing [0x41; 0xE2; 0x82]%N = [0x41; 0xFFFD]%N /\
  decode_ignoring [0x41; 0xE2; 0x82]%N = [0x41]%N.
Proof. split; reflexivity. Qed.

Lemma utf8_scan_ascii (b : bytes) :
  forallb (fun x => (x <? 0x80)%N) b = true -> utf8_scan b = map Char b.
Proof.
  induction b as [ | x r IH ]; cbn [forallb utf8_scan map]; [ reflexivity | ].
  intros H. apply andb_true_iff in H as [Hx Hr].
  rewrite Hx. now rewrite IH.
Qed.

(** ASCII text decodes to itself under either handler. *)
Lemma decode_ascii (b : bytes) :
  forallb (fun x => (x <? 0x80)%N) b = true ->
  decode_ignoring b = b /\ decode_replacing b = b.
Proof.
  intros H. unfold decode_ignoring, decode_replacing.
  rewrite (utf8_scan_ascii b H). split.
  - induction b as [ | x r IH ]; cbn; [ reflexivity | ].
    cbn in H. apply andb_true_iff in H as [_ Hr]. now rewrite IH.
  - rewrite map_map. apply map_id.
Qed.

(** The two handlers differ only where something fails to decode: one
    code point is dropped for each U+FFFD the other would insert. *)
Lemma decode_replacing_length (b : bytes) :
  length (decode_replacing b)
  = length (decode_ignoring b) + length (filter is_bad (utf8_scan b)).
Proof.
  unfold decode_replacing, decode_ignoring.
  induction (utf8_scan b) as [ | [ c | ] r IH ]; cbn; [ reflexivity | | ];
    rewrite IH; lia.
Qed.

Lemma decode_well_formed (b : bytes) :
  existsb is_bad (utf8_scan b) = false -> decode_replacing b = decode_ignoring b.
Proof.
  unfold decode_replacing, decode_ignoring.
  induction (utf8_scan b) as [ | [ c | ] r IH ]; cbn; [ reflexivity | | discriminate ].
  intros H. now rewrite IH.
Qed.

(** ** Capture *)

Lemma parse_body_run (request : Request) (w : World) :
  parse_body request w = (Ok (body_policy decode_ignoring request), w).
Proof.
  unfold parse_body, body_policy, try_except_all, request_json, request_form,
    request_body, lift, bind, bytes_decode, ret, raise.
  destruct (json request) as [ document | e1 ]; [ reflexivity | ].
  destruct (form request) as [ fields | e2 ]; reflexivity.
Qed.

Lemma capture_run (request : Request) (w : World) :
  capture request w
  = (Ok (mkCaptured
           (uuid_source w (uuid_count w)) (clock w (clock_count w))
           (str_dict (query_params request))
           (body_policy decode_ignoring request)
           (query_record (uuid_source w (uuid_count w)) (clock w (clock_count w))
              request (str_dict (query_params request))
              (body_policy decode_ignoring request))),
     ticked w).
Proof.
  unfold capture, bind at 1. cbn [uuid4].
  unfold bind at 1. cbn [now_isoformat uuid_source uuid_count clock clock_count disk].
  unfold bind. rewrite parse_body_run. reflexivity.
Qed.




(** C2. Capture never raises: for every request the ladder of parsing
    stages ends in a body, and the record is built with its nine
    fields, that body among them. *)
Theorem capture_never_raises (request : Request) (w : World) :
  exists (c : Captured) (w' : World),
    capture request w = (Ok c, w') /\
    parse_body request w = (Ok (c_body c), w) /\
    keys (c_query_data c) = Some record_keys /\
    field (u "body") (c_query_data c) = Some (c_body c) /\
    field (u "query_id") (c_query_data c) = Some (VStr (uuid_source w (uuid_count w))) /\
    field (u "timestamp") (c_query_data c) = Some (VStr (clock w (clock_count w))).
Proof.
  eexists. eexists. split; [ apply capture_run | ].
  cbn [c_body c_query_data].
  split; [ apply parse_body_run | ].
  repeat split.
Qed.

(** C4, as the code has it. The body is the structured document when
    the payload parses as one, else the form fields when it parses as a
    form, else [{"raw_body": text}] where the text is the payload
    decoded with the octets that do not decode left out. *)
Theorem parse_body_follows_policy (request : Request) (w : World) :
  parse_body request w = (Ok (body_policy decode_ignoring request), w) /\
  (forall b : bytes, bytes_decode Ignore b w = (Ok (decode_ignoring b), w)).
Proof.
  split; [ apply parse_body_run | reflexivity ].
Qed.

Example capture_json_body :
  fst (parse_body json_request (example_world Missing))
  = Ok (VDict [(u "q", VStr "hello")]).
Proof. reflexivity. Qed.

Example capture_form_body :
  fst (parse_body form_request (example_world Missing))
  = Ok (VDict [(u "q", VStr "hello")]).
Proof. reflexivity. Qed.

Example capture_binary_body :
  fst (parse_body binary_request (example_world Missing))
  = Ok (VDict [(u "raw_body", VStr "A")]).
Proof. reflexivity. Qed.

Example capture_empty_body :
  fst (parse_body empty_request (example_world Missing)) = Ok empty_dict.
Proof. reflexivity. Qed.

(** C4, as the specification has it, fails: octets that do not decode
    are left out of [raw_body], not replaced.  For the payload
    [FF 41 E2 82] the code stores ["A"], where replacing would give
    U+FFFD, ["A"], U+FFFD. *)
Lemma raw_body_drops_undecodable_octets :
  parse_body binary_request (example_world Missing)
  = (Ok (VDict [(u "raw_body", VStr [65%N])]), example_world Missing) /\
  body_policy decode_replacing binary_request
  = VDict [(u "raw_body", VStr [0xFFFD; 65; 0xFFFD]%N)] /\
  fst (parse_body binary_request (example_world Missing))
  <> Ok (body_policy decode_replacing binary_request).
Proof.
  split; [ reflexivity | ].
  split; [ reflexivity | ].
  cbn. discriminate.
Qed.

(** ** The routes of [/track-query] *)





(** * Further properties of the code *)

(** ** Outcomes of the store functions in every state of the document *)


Lemma load_queries_keeps_world (w : World) : snd (load_queries w) = w.
Proof.
  destruct w as [d us uc cl cc].
  destruct d as [ | | [ | | v ] ]; reflexivity.
Qed.

Lemma save_query_cases (r : value) (w : World) :
  (exists l : list value,
      holds_log (disk w) l /\
      save_query r w
      = (Ok tt, with_disk w (Stored (Document (VList (appended l r)))))) \/
  (exists e : exn,
      save_query r w = (Raise e, w) /\
      (disk w = Locked /\ e = PermissionError \/
       disk w = Stored Undecodable /\ e = UnicodeDecodeError \/
       exists v : value,
         disk w = Stored (Document v) /\
         (forall l : list value, v <> VList l) /\
         e = AttributeError)).
Proof.
  destruct (disk w) as [ | | [ | | v ] ] eqn:E.
  - left. exists []. split; [ constructor | ].
    apply save_query_log. rewrite E. constructor.
  - right. exists PermissionError.
    destruct w as [d us uc cl cc]. cbn [disk] in E. subst d.
    split; [ reflexivity | auto ].
  - right. exists UnicodeDecodeError.
    destruct w as [d us uc cl cc]. cbn [disk] in E. subst d.
    split; [ reflexivity | auto ].
  - left. exists []. split; [ constructor | ].
    apply save_query_log. rewrite E. constructor.
  - destruct v as [ | b | z | t | s | items | entries | b ];
      try (right; exists AttributeError;
           destruct w as [d us uc cl cc]; cbn [disk] in E; subst d;
           split; [ reflexivity | ];
           right; right; eexists; split; [ reflexivity | ];
           split; [ intros l; discriminate | reflexivity ]).
    left. exists items. split; [ constructor | ].
    apply save_query_log. rewrite E. constructor.
Qed.

Lemma appended_snoc (l : list value) (r : value) :
  appended l r = map dumped (last_n 99 l) ++ [dumped r].
Proof. unfold appended. now rewrite (last_n_snoc 99), map_app. Qed.

Lemma appended_length (l : list value) (r : value) :
  length (appended l r) = Nat.min 100 (S (length l)).
Proof.
  unfold appended. rewrite length_map, last_n_length, length_app.
  cbn [length]. lia.
Qed.

Lemma appended_is_json (l : list value) (r : value) :
  forallb is_json (appended l r) = true.
Proof.
  unfold appended. induction (last_n 100 (l ++ [r])) as [ | x t IH ]; cbn;
    [ reflexivity | ].
  now rewrite is_json_dumped, IH.
Qed.

(** X1. [save_query] succeeds exactly when the document stands for a
    log: it is missing, it is text that does not parse, or it parses to
    a list. *)
Theorem save_query_succeeds_iff_log (r : value) (w : World) :
  (exists w' : World, save_query r w = (Ok tt, w')) <->
  (exists l : list value, holds_log (disk w) l).
Proof.
  split.
  - intros [w' H].
    destruct (save_query_cases r w) as [ [l [Hl _]] | [e [He _]] ].
    + now exists l.
    + rewrite He in H. discriminate.
  - intros [l Hl]. eexists. exact (save_query_log w l r Hl).
Qed.

(** X2. When [save_query] fails nothing has been written: the world is
    the one it started in, and the exception is PermissionError for a
    file that cannot be opened, UnicodeDecodeError for octets that are
    not text, and AttributeError for a document that parses to
    something other than a list. *)
Theorem save_query_failure_keeps_world (r : value) (w w' : World) (e : exn) :
  save_query r w = (Raise e, w') ->
  w' = w /\
  (disk w = Locked /\ e = PermissionError \/
   disk w = Stored Undecodable /\ e = UnicodeDecodeError \/
   exists v : value,
     disk w = Stored (Document v) /\
     (forall l : list value, v <> VList l) /\
     e = AttributeError).
Proof.
  intros H.
  destruct (save_query_cases r w) as [ [l [_ Hok]] | [e0 [He Hwhy]] ].
  - rewrite Hok in H. discriminate.
  - rewrite He in H. injection H as <- <-. split; [ reflexivity | exact Hwhy ].
Qed.

Lemma save_query_failure_keeps_world_witness :
  example_world (Stored (Document (VInt 7)))
  = example_world (Stored (Document (VInt 7))) /\
  (disk (example_world (Stored (Document (VInt 7)))) = Locked /\
   AttributeError = PermissionError \/
   disk (example_world (Stored (Document (VInt 7)))) = Stored Undecodable /\
   AttributeError = UnicodeDecodeError \/
   exists v : value,
     disk (example_world (Stored (Document (VInt 7)))) = Stored (Document v) /\
     (forall l : list value, v <> VList l) /\
     AttributeError = AttributeError).
Proof.
  apply (save_query_failure_keeps_world (VStr "r")). reflexivity.
Defined.

(** X3. Whatever [save_query] is given, what it leaves behind when it
    succeeds is a JSON array of between 1 and 100 serialisable records
    whose last element is the record as [json.dump] writes it; nothing
    but the document changes. *)
Theorem save_query_writes_bounded_json (r : value) (w w' : World) :
  save_query r w = (Ok tt, w') ->
  exists kept : list value,
    w' = with_disk w (Stored (Document (VList kept))) /\
    1 <= length kept <= 100 /\
    forallb is_json kept = true /\
    last kept VNone = dumped r.
Proof.
  intros H.
  destruct (save_query_cases r w) as [ [l [_ Hok]] | [e [He _]] ].
  - rewrite Hok in H. injection H as <-.
    exists (appended l r).
    split; [ reflexivity | ].
    split; [ rewrite appended_length; lia | ].
    split; [ apply appended_is_json | ].
    rewrite appended_snoc. apply last_last.
  - rewrite He in H. discriminate.
Qed.

Lemma save_query_writes_bounded_json_witness :
  exists kept : list value,
    with_disk (example_world Missing)
      (Stored (Document (VList [VDict [(u "raw_body", VStr "b'\xff'")]])))
    = with_disk (example_world Missing) (Stored (Document (VList kept))) /\
    1 <= length kept <= 100 /\
    forallb is_json kept = true /\
    last kept VNone = dumped (VDict [(u "raw_body", VBytes [255%N])]).
Proof.
  apply (save_query_writes_bounded_json
           (VDict [(u "raw_body", VBytes [255%N])]) (example_world Missing)).
  reflexivity.
Defined.

(** ** The cap *)

(** X4. The boundary of the cap: onto a log of fewer than 100 records
    [save_query] appends and evicts nothing; onto a log of exactly 100
    it evicts the oldest record, and only that one. *)
Theorem save_query_cap_boundary (l : list value) (r : value) (w : World) :
  holds_log (disk w) l ->
  length l <= 100 ->
  forallb is_json l = true ->
  is_json r = true ->
  exists w' : World,
    save_query r w = (Ok tt, w') /\
    load_queries w'
    = (Ok (VList ((if length l <? 100 then l else tl l) ++ [r])), w').
Proof.
  intros Hlog Hlen Hl Hr.
  exists (with_disk w (Stored (Document (VList (appended l r))))).
  split; [ now apply save_query_log | ].
  assert (Hkept : appended l r = (if length l <? 100 then l else tl l) ++ [r]).
  { rewrite (appended_json l r Hl Hr).
    destruct (Nat.ltb_spec (length l) 100) as [Hlt | Hge].
    - apply last_n_short. rewrite length_app. cbn [length]. lia.
    - unfold last_n. rewrite length_app. cbn [length].
      replace (length l + 1 - 100) with 1 by lia.
      destruct l as [ | x t ]; [ cbn in Hge; lia | reflexivity ]. }
  rewrite <- Hkept. apply load_queries_log. rewrite disk_with_disk. constructor.
Qed.

Lemma save_query_cap_boundary_witness :
  exists w' : World,
    save_query (VStr "new")
      (example_world (Stored (Document (VList (numbered_records 100)))))
    = (Ok tt, w') /\
    load_queries w'
    = (Ok (VList (tl (numbered_records 100) ++ [VStr "new"])), w').
Proof.
  apply (save_query_cap_boundary (numbered_records 100)).
  - constructor.
  - vm_compute. repeat constructor.
  - reflexivity.
  - reflexivity.
Defined.

(** X5. Appends compose with what is already stored, whatever its
    size: after one or more appends onto any log, the document holds
    the last 100 elements of the old records followed by the new
    ones. *)
Theorem appends_onto_any_log (l rs : list value) (w : World) :
  holds_log (disk w) l ->
  forallb is_json l = true ->
  forallb is_json rs = true ->
  rs <> [] ->
  exists w' : World,
    save_each rs w = (Ok tt, w') /\
    load_queries w'
    = (Ok (VList (skipn (length (l ++ rs) - 100) (l ++ rs))), w').
Proof.
  intros Hlog Hl Hrs Hne.
  destruct rs as [ | r rest ]; [ contradiction | ].
  cbn [forallb] in Hrs. apply andb_true_iff in Hrs as [Hr Hrest].
  pose proof (save_query_log w l r Hlog) as Hsave.
  rewrite (appended_json l r Hl Hr) in Hsave.
  set (l1 := last_n 100 (l ++ [r])) in *.
  set (w1 := with_disk w (Stored (Document (VList l1)))) in *.
  destruct (save_each_log rest w1 l1) as [w' [Hrun Hfinal]].
  - subst w1. rewrite disk_with_disk. constructor.
  - subst l1. rewrite last_n_length. lia.
  - subst l1. apply last_n_forallb.
    rewrite forallb_app, Hl. cbn. now rewrite Hr.
  - exact Hrest.
  - exists w'. split.
    + cbn [save_each]. unfold bind. now rewrite Hsave.
    + subst l1. rewrite last_n_app_absorb, <- app_assoc in Hfinal.
      now apply load_queries_log.
Qed.

Lemma appends_onto_any_log_witness :
  exists w' : World,
    save_each three_records
      (example_world (Stored (Document (VList (numbered_records 150)))))
    = (Ok tt, w') /\
    load_queries w'
    = (Ok (VList (skipn 53 (numbered_records 150) ++ three_records)), w').
Proof.
  apply (appends_onto_any_log (numbered_records 150) three_records).
  - constructor.
  - reflexivity.
  - reflexivity.
  - discriminate.
Defined.

(** ** Clearing and listing *)

(** X6. Clearing resets the log for the next append: whatever the
    document held, after [clear_queries] and one [save_query] the
    listing is that one record with count 1. *)
Theorem clear_then_save_holds_one_record (r : value) (w : World) :
  disk w <> Locked ->
  is_json r = true ->
  exists w' : World,
    (clear_queries ;;; save_query r) w = (Ok tt, w') /\
    get_queries_api w'
    = (Ok (VDict [ (u "queries", VList [r]); (u "count", VInt 1) ]), w').
Proof.
  intros Hdisk Hr.
  set (w1 := with_disk w (Stored (Document empty_list))).
  assert (Hclear : clear_queries w
                   = (Ok (VDict [(u "message", VStr "All queries cleared successfully")]),
                      w1)).
  { subst w1. destruct w as [d us uc cl cc]. cbn [disk] in Hdisk.
    destruct d; [ reflexivity | congruence | reflexivity ]. }
  assert (Hlog : holds_log (disk w1) []) by (subst w1; constructor).
  exists (with_disk w1 (Stored (Document (VList (appended [] r))))).
  split.
  - unfold bind. rewrite Hclear. now apply save_query_log.
  - rewrite (appended_json [] r eq_refl Hr).
    unfold get_queries_api, bind.
    rewrite (load_queries_log _ (last_n 100 ([] ++ [r])));
      [ reflexivity | rewrite disk_with_disk; constructor ].
Qed.

Lemma clear_then_save_holds_one_record_witness :
  exists w' : World,
    (clear_queries ;;; save_query (VStr "only"))
      (example_world (Stored (Document (VList (numbered_records 100)))))
    = (Ok tt, w') /\
    get_queries_api w'
    = (Ok (VDict [ (u "queries", VList [VStr "only"]); (u "count", VInt 1) ]), w').
Proof.
  apply clear_then_save_holds_one_record.
  - discriminate.
  - reflexivity.
Defined.

(** X7. Clearing is idempotent: clearing twice gives the same answer
    and leaves the same world as clearing once, also when the file
    cannot be opened and both raise. *)
Theorem clear_queries_idempotent (w : World) :
  (clear_queries ;;; clear_queries) w = clear_queries w.
Proof.
  destruct w as [d us uc cl cc]. destruct d; reflexivity.
Qed.

(** X8. The listing does not check the shape of the document: a JSON
    object comes back as [queries] with the number of its keys as
    [count], and [null], a boolean or a number makes [len] raise
    TypeError. *)
Theorem listing_does_not_check_shape (v : value) (w : World) :
  disk w = Stored (Document v) ->
  (forall entries : list (text * value),
      v = VDict entries ->
      get_queries_api w
      = (Ok (VDict [ (u "queries", v);
                     (u "count", VInt (Z.of_nat (length entries))) ]), w)) /\
  (v = VNone \/ (exists b, v = VBool b) \/ (exists z, v = VInt z) \/
   (exists t, v = VFloat t) ->
   get_queries_api w = (Raise TypeError, w)).
Proof.
  intros Hdisk. destruct w as [d us uc cl cc]. cbn [disk] in Hdisk. subst d.
  split.
  - intros entries ->. reflexivity.
  - intros [ -> | [ [b ->] | [ [z ->] | [t ->] ] ] ]; reflexivity.
Qed.

Lemma listing_does_not_check_shape_witness :
  get_queries_api
    (example_world (Stored (Document (VDict [(u "a", VInt 1); (u "b", VInt 2)]))))
  = (Ok (VDict [ (u "queries", VDict [(u "a", VInt 1); (u "b", VInt 2)]);
                 (u "count", VInt 2) ]),
     example_world (Stored (Document (VDict [(u "a", VInt 1); (u "b", VInt 2)])))) /\
  get_queries_api (example_world (Stored (Document (VInt 7))))
  = (Raise TypeError, example_world (Stored (Document (VInt 7)))).
Proof.
  split.
  - destruct (listing_does_not_check_shape
                (VDict [(u "a", VInt 1); (u "b", VInt 2)])
                (example_world
                   (Stored (Document (VDict [(u "a", VInt 1); (u "b", VInt 2)]))))
                eq_refl) as [Hdict _].
    exact (Hdict _ eq_refl).
  - destruct (listing_does_not_check_shape (VInt 7)
                (example_world (Stored (Document (VInt 7)))) eq_refl)
      as [_ Hscalar].
    apply Hscalar. right. right. left. now exists 7%Z.
Defined.

(** X9. The two listings agree in every state of the document: the
    template is handed the same records and the same count that the API
    returns, and when loading or [len] fails for the one it fails with
    the same exception for the other. *)
Theorem listings_agree (request : Request) (w : World) :
  match get_queries_api w with
  | (Ok answer, w') =>
      exists (queries : value) (n : Z),
        answer = VDict [ (u "queries", queries); (u "count", VInt n) ] /\
        get_queries_html request w
        = (Ok (Template 200 "queries.html"
                 (VDict [ (u "queries", queries);
                          (u "queries_count", VInt n) ])), w')
  | (Raise e, w') => get_queries_html request w = (Raise e, w')
  end.
Proof.
  unfold get_queries_api, get_queries_html, bind.
  destruct (load_queries w) as [ [ v | e ] w1 ]; [ | reflexivity ].
  destruct v; cbn; eauto.
Qed.

(** ** The application as a whole *)

Lemma log_queries_get_unfold (request : Request)
    (next : Request -> M Response) (w : World) :
  url_path request = u "/track-query" ->
  method request = u "GET" ->
  log_queries request next w
  = (save_query (record_in w request empty_dict) ;;;
     JSONResponse
       (get_acknowledgement (uuid_source w (uuid_count w))
          (clock w (clock_count w)) (str_dict (query_params request))))
      (ticked w).
Proof.
  intros Hpath Hmethod. unfold log_queries. rewrite Hpath, Hmethod.
  decide_routes. reflexivity.
Qed.

Lemma track_query_post_unfold (request : Request) (w : World) :
  track_query_post request w
  = (save_query (record_in w request (body_policy decode_ignoring request)) ;;;
     JSONResponse
       (post_acknowledgement (uuid_source w (uuid_count w))
          (clock w (clock_count w)) (str_dict (query_params request))
          (body_policy decode_ignoring request)))
      (ticked w).
Proof.
  unfold track_query_post, bind at 1. rewrite capture_run. reflexivity.
Qed.

Lemma get_queries_api_keeps_world (w : World) : snd (get_queries_api w) = w.
Proof.
  unfold get_queries_api, bind.
  pose proof (load_queries_keeps_world w) as H.
  destruct (load_queries w) as [ [ v | e ] w1 ]; cbn [snd] in H; subst w1;
    [ | reflexivity ].
  destruct v; reflexivity.
Qed.

Lemma get_queries_html_keeps_world (request : Request) (w : World) :
  snd (get_queries_html request w) = w.
Proof.
  unfold get_queries_html, bind.
  pose proof (load_queries_keeps_world w) as H.
  destruct (load_queries w) as [ [ v | e ] w1 ]; cbn [snd] in H; subst w1;
    [ | reflexivity ].
  destruct v; reflexivity.
Qed.

Lemma respond_keeps_world (handler : M value) (w : World) :
  snd (handler w) = w -> snd (respond handler w) = w.
Proof.
  unfold respond, bind. destruct (handler w) as [ [ v | e ] w1 ]; auto.
Qed.

Lemma text_eqb_false (a b : text) : text_eqb a b = false -> a <> b.
Proof. intros E ->. rewrite text_eqb_refl in E. discriminate. Qed.

(** Hypotheses about the path and the verb that cannot hold together. *)
Ltac clash :=
  repeat match goal with
    | E : text_eqb _ _ = true |- _ => apply text_eqb_eq in E
    | E : text_eqb _ _ = false |- _ => apply text_eqb_false in E
    | H : In _ _ |- _ => cbn [In] in H
    | H : _ \/ _ |- _ => destruct H as [H | H]
    | H : False |- _ => contradiction
    end;
  try congruence;
  match goal with
  | H1 : ?a = u ?s, H2 : ?a = u ?t |- _ =>
      rewrite H1 in H2; vm_compute in H2; discriminate
  | H1 : ?a = u ?s, H2 : u ?t = ?a |- _ =>
      rewrite H1 in H2; vm_compute in H2; discriminate
  end.

(** How the application disposes of a request. *)
Lemma app_dispatch (request : Request) (w : World) :
  (url_path request = u "/track-query" /\ method request = u "GET" /\
   app request w
   = (save_query (record_in w request empty_dict) ;;;
      JSONResponse
        (get_acknowledgement (uuid_source w (uuid_count w))
           (clock w (clock_count w)) (str_dict (query_params request))))
       (ticked w)) \/
  (url_path request = u "/track-query" /\
   In (method request) [u "POST"; u "PUT"; u "PATCH"] /\
   app request w = track_query_post request w) \/
  (url_path request = u "/clear-queries" /\ method request = u "POST" /\
   app request w = respond clear_queries w) \/
  (~ writes request /\ snd (app request w) = w).
Proof.
  destruct (text_eqb (url_path request) (u "/track-query")) eqn:Et.
  - destruct (text_eqb (method request) (u "GET")) eqn:Eg.
    + left. apply text_eqb_eq in Et, Eg.
      split; [ exact Et | split; [ exact Eg | ] ].
      now apply log_queries_get_unfold.
    + destruct (text_eqb (method request) (u "POST")) eqn:Epost;
      [ | destruct (text_eqb (method request) (u "PUT")) eqn:Eput;
          [ | destruct (text_eqb (method request) (u "PATCH")) eqn:Epatch ] ].
      * right. left. split; [ now apply text_eqb_eq | ].
        split; [ apply text_eqb_eq in Epost; rewrite Epost; cbn; auto | ].
        unfold app, log_queries, router. cbv beta zeta.
        now rewrite Et, Eg, Epost.
      * right. left. split; [ now apply text_eqb_eq | ].
        split; [ apply text_eqb_eq in Eput; rewrite Eput; cbn; auto | ].
        unfold app, log_queries, router. cbv beta zeta.
        now rewrite Et, Eg, Epost, Eput.
      * right. left. split; [ now apply text_eqb_eq | ].
        split; [ apply text_eqb_eq in Epatch; rewrite Epatch; cbn; auto | ].
        unfold app, log_queries, router. cbv beta zeta.
        now rewrite Et, Eg, Epost, Eput, Epatch.
      * right. right. right. split.
        -- unfold writes. intros [ [Hp Hm] | [Hp Hm] ]; clash.
        -- unfold app, log_queries, router. cbv beta zeta.
           now rewrite Et, Eg, Epost, Eput, Epatch.
  - destruct (text_eqb (url_path request) (u "/clear-queries")) eqn:Ec;
      [ destruct (text_eqb (method request) (u "POST")) eqn:Epost | ].
    + right. right. left. apply text_eqb_eq in Ec, Epost.
      split; [ exact Ec | split; [ exact Epost | ] ].
      unfold app, log_queries, router. rewrite Ec, Epost.
      decide_routes. reflexivity.
    + right. right. right. split.
      * unfold writes. intros [ [Hp Hm] | [Hp Hm] ]; clash.
      * apply text_eqb_eq in Ec.
        unfold app, log_queries, router. rewrite Ec. decide_routes.
        now rewrite Epost.
    + right. right. right. split.
      * unfold writes. intros [ [Hp Hm] | [Hp Hm] ]; clash.
      * unfold app, log_queries, router. cbv beta zeta.
        rewrite Et, Ec. cbn [andb].
        destruct (text_eqb (url_path request) (u "/queries"));
          destruct (text_eqb (url_path request) (u "/api/queries"));
          destruct (text_eqb (method request) (u "GET"));
          first [ apply get_queries_html_keeps_world
                | apply respond_keeps_world, get_queries_api_keeps_world
                | reflexivity ].
Qed.

Lemma save_then_respond_world (r content : value) (l : list value) (w : World) :
  holds_log (disk w) l ->
  snd ((save_query r ;;; JSONResponse content) w)
  = with_disk w (Stored (Document (VList (appended l r)))).
Proof.
  intros Hlog. unfold bind. rewrite (save_query_log w l r Hlog).
  unfold JSONResponse. destruct (is_json content); reflexivity.
Qed.





(** X10. Only the four verbs handled on [/track-query] and POST on
    [/clear-queries] can change anything: every other request, whether
    it is answered, refused or fails, leaves the document, the
    identifiers and the clock as they were. *)
Theorem other_requests_keep_world (request : Request) (w : World) :
  ~ writes request -> snd (app request w) = w.
Proof.
  intros Hno.
  destruct (app_dispatch request w)
    as [ [Hp [Hm _]] | [ [Hp [Hm _]] | [ [Hp [Hm _]] | [_ H] ] ] ].
  - exfalso. apply Hno. left. split; [ exact Hp | rewrite Hm; cbn; auto ].
  - exfalso. apply Hno. left. split; [ exact Hp | ].
    cbn [In] in *. tauto.
  - exfalso. apply Hno. right. now split.
  - exact H.
Qed.

Lemma other_requests_keep_world_witness :
  snd (app api_request (example_world (Stored (Document (VInt 7)))))
  = example_world (Stored (Document (VInt 7))).
Proof.
  apply other_requests_keep_world.
  unfold writes. intros [ [Hp _] | [Hp _] ]; vm_compute in Hp; discriminate.
Defined.

Lemma app_keeps_log_bounded (request : Request) (w : World) :
  bounded_log (disk w) -> bounded_log (disk (snd (app request w))).
Proof.
  intros [l [Hlog Hlen]].
  assert (Hsaved : forall (w0 : World) (r : value),
             bounded_log
               (disk (with_disk w0 (Stored (Document (VList (appended l r))))))).
  { intros w0 r. exists (appended l r). rewrite disk_with_disk.
    split; [ constructor | rewrite appended_length; lia ]. }
  destruct (app_dispatch request w)
    as [ [_ [_ H]] | [ [_ [_ H]] | [ [_ [_ H]] | [_ H] ] ] ].
  - rewrite H, (save_then_respond_world _ _ l); [ apply Hsaved | exact Hlog ].
  - rewrite H, track_query_post_unfold, (save_then_respond_world _ _ l);
      [ apply Hsaved | exact Hlog ].
  - rewrite H. exists []. split; [ | cbn; lia ].
    destruct w as [d us uc cl cc]. cbn [disk] in Hlog.
    inversion Hlog; subst; constructor.
  - rewrite H. now exists l.
Qed.

(** X11. The cap is an invariant of the running application: from a
    document that stands for a log of at most 100 records, any sequence
    of requests whatsoever, failed ones included, leaves a document
    that stands for a log of at most 100 records. *)
Theorem serve_keeps_log_bounded (requests : list Request) (w : World) :
  bounded_log (disk w) -> bounded_log (disk (serve requests w)).
Proof.
  revert w. induction requests as [ | request rest IH ]; intros w H.
  - exact H.
  - cbn [serve]. apply IH. now apply app_keeps_log_bounded.
Qed.

Lemma serve_keeps_log_bounded_witness :
  bounded_log
    (disk (serve [get_request; json_request; binary_request; api_request;
                  with_method (u "DELETE") get_request; get_request]
             (example_world (Stored (Document (VList (numbered_records 100))))))).
Proof.
  apply serve_keeps_log_bounded.
  exists (numbered_records 100). split; [ constructor | ].
  vm_compute. repeat constructor.
Defined.






(** ** The raw body *)

(** X14. Nothing is lost from a well-formed payload: when neither
    parser accepts the request and the payload is valid UTF-8, so that
    strict decoding returns a text, [raw_body] is exactly that text. *)
Theorem raw_body_keeps_well_formed_text
    (request : Request) (w : World) (e1 e2 : exn) (t : text) :
  json request = Raise e1 ->
  form request = Raise e2 ->
  bytes_decode Strict (payload request) w = (Ok t, w) ->
  parse_body request w = (Ok (VDict [(u "raw_body", VStr t)]), w).
Proof.
  intros Hjson Hform Hstrict.
  rewrite parse_body_run. unfold body_policy. rewrite Hjson, Hform.
  unfold bytes_decode in Hstrict.
  destruct (existsb is_bad (utf8_scan (payload request)));
    [ discriminate | ].
  now injection Hstrict as <-.
Qed.

Lemma raw_body_keeps_well_formed_text_witness :
  parse_body request_with_accents (example_world Missing)
  = (Ok (VDict [(u "raw_body", VStr [0x63; 0x61; 0x66; 0xE9]%N)]),
     example_world Missing).
Proof.
  apply (raw_body_keeps_well_formed_text request_with_accents _
           JSONDecodeError HTTPException); reflexivity.
Defined.

Lemma utf8_scan_length_below (n : nat) :
  forall b : bytes, length b <= n -> length (utf8_scan b) <= length b.
Proof.
  induction n as [ | n IH ]; intros b Hn.
  - destruct b; [ cbn; lia | cbn in Hn; lia ].
  - destruct b as [ | b0 r0 ]; [ cbn; lia | ].
    cbn [utf8_scan].
    repeat match goal with
      | |- context [ if ?c then _ else _ ] => destruct c
      | |- context [ match ?r with [] => _ | _ :: _ => _ end ] => destruct r
      end;
      cbn [length] in *;
      try lia;
      match goal with
      | |- context [ utf8_scan ?r ] =>
          pose proof (IH r) as Hr; cbn [length] in Hr; lia
      end.
Qed.

(** X15. [raw_body] never has more characters than the payload has
    octets. *)
Theorem raw_body_no_longer_than_payload
    (request : Request) (w : World) (e1 e2 : exn) :
  json request = Raise e1 ->
  form request = Raise e2 ->
  exists t : text,
    parse_body request w = (Ok (VDict [(u "raw_body", VStr t)]), w) /\
    length t <= length (payload request).
Proof.
  intros Hjson Hform. exists (decode_ignoring (payload request)).
  split.
  - rewrite parse_body_run. unfold body_policy. now rewrite Hjson, Hform.
  - pose proof (utf8_scan_length_below _ (payload request) (le_n _)) as Hscan.
    pose proof (decode_replacing_length (payload request)) as Hrep.
    unfold decode_replacing in Hrep. rewrite length_map in Hrep. lia.
Qed.

Lemma raw_body_no_longer_than_payload_witness :
  exists t : text,
    parse_body binary_request (example_world Missing)
    = (Ok (VDict [(u "raw_body", VStr t)]), example_world Missing) /\
    length t <= 4.
Proof.
  apply (raw_body_no_longer_than_payload binary_request _
           UnicodeDecodeError HTTPException); reflexivity.
Defined.

(** ** Counting tracked requests *)

Lemma tracked_request_world (request : Request) (l : list value) (w : World) :
  url_path request = u "/track-query" ->
  In (method request) [u "GET"; u "POST"; u "PUT"; u "PATCH"] ->
  holds_log (disk w) l ->
  exists r : value,
    snd (app request w)
    = with_disk (ticked w) (Stored (Document (VList (appended l r)))).
Proof.
  intros Hpath Hverb Hlog.
  destruct (app_dispatch request w)
    as [ [_ [_ H]] | [ [_ [_ H]] | [ [Hp _] | [Hno _] ] ] ].
  - eexists. rewrite H. now apply save_then_respond_world.
  - eexists. rewrite H, track_query_post_unfold.
    now apply save_then_respond_world.
  - rewrite Hpath in Hp. vm_compute in Hp. discriminate.
  - exfalso. apply Hno. left. now split.
Qed.

(** X16. Every tracked request is recorded, whether or not it could be
    answered: after serving [n] requests to [/track-query] with any of
    the four handled verbs, a log that held [m <= 100] records holds
    [min 100 (m + n)]. *)
Theorem tracked_requests_are_counted
    (requests : list Request) (l : list value) (w : World) :
  Forall (fun request =>
            url_path request = u "/track-query" /\
            In (method request) [u "GET"; u "POST"; u "PUT"; u "PATCH"])
         requests ->
  holds_log (disk w) l ->
  length l <= 100 ->
  exists l' : list value,
    holds_log (disk (serve requests w)) l' /\
    length l' = Nat.min 100 (length l + length requests).
Proof.
  intros Hall. revert l w.
  induction Hall as [ | request rest [Hpath Hverb] _ IH ]; intros l w Hlog Hlen.
  - exists l. split; [ exact Hlog | cbn [length]; lia ].
  - destruct (tracked_request_world request l w Hpath Hverb Hlog) as [r Hw].
    cbn [serve]. rewrite Hw.
    destruct (IH (appended l r)
                (with_disk (ticked w) (Stored (Document (VList (appended l r))))))
      as [l' [Hlog' Hlen']].
    + rewrite disk_with_disk. constructor.
    + rewrite appended_length. lia.
    + exists l'. split; [ exact Hlog' | ].
      rewrite Hlen', appended_length. cbn [length]. lia.
Qed.

Lemma tracked_requests_are_counted_witness :
  exists l' : list value,
    holds_log
      (disk (serve [get_request; json_request; with_method (u "PUT") form_request]
               (example_world (Stored (Document (VList (numbered_records 99)))))))
      l' /\
    length l' = 100.
Proof.
  destruct (tracked_requests_are_counted
              [get_request; json_request; with_method (u "PUT") form_request]
              (numbered_records 99)
              (example_world (Stored (Document (VList (numbered_records 99))))))
    as [l' [Hlog Hlen]].
  - repeat (apply Forall_cons; [ split; [ reflexivity | cbn; auto ] | ]).
    apply Forall_nil.
  - constructor.
  - vm_compute. repeat constructor.
  - exists l'. split; [ exact Hlog | exact Hlen ].
Defined.

(** X17. A GET to [/track-query] is logged without its body ever being
    looked at: whatever [request.json()], [request.form()] and
    [request.body()] would give, the answer and the world are the
    same. *)
Theorem get_never_reads_the_body
    (request : Request) (w : World)
    (json' : outcome value) (form' : outcome (list (text * text)))
    (payload' : bytes) :
  url_path request = u "/track-query" ->
  method request = u "GET" ->
  app (mkRequest (method request) (url_path request) (url request)
         (headers request) (query_params request) (client_host request)
         json' form' payload') w
  = app request w.
Proof.
  intros Hpath Hmethod. unfold app.
  rewrite !log_queries_get_unfold by assumption.
  reflexivity.
Qed.

Lemma get_never_reads_the_body_witness :
  app (mkRequest "GET" "/track-query" "http://testserver/track-query?x=5"
         [(u "host", u "testserver")] [(u "x", u "5")] (Some (u "testclient"))
         (Ok (VDict [(u "q", VStr "hello")])) (Raise HTTPException) [255%N])
      (example_world Missing)
  = app get_request (example_world Missing).
Proof.
  apply (get_never_reads_the_body get_request); reflexivity.
Defined.
